(** * Assessment backend: scoring, reliability checks and share payloads

    A shallow embedding of the three service modules of the assessment
    backend (scoringService.js, reliabilityService.js, shareService.js)
    together with the sample assessment of assessmentController.js.

    JavaScript numbers are IEEE-754 binary64 values, so they are modelled
    by Rocq's primitive floats: a division by zero yields [infinity] or
    [nan] exactly as it does in the source, and every concrete evaluation
    below is bit-exact.  Objects used as dictionaries are [gmap]s keyed by
    strings; arrays are lists; [null]/[undefined] is [None]. *)

From Stdlib Require Import ZArith List String Ascii Floats Bool Lia.
From stdpp Require Import gmap strings pretty.
Import ListNotations.

Set Warnings "-inexact-float".
Local Open Scope string_scope.

(** ** JavaScript numbers *)

Module JS.

Definition Number := float.

(** An integer of the program text, an array length or a counter, as
    the Number it denotes (rounded to nearest when above 2^53). *)
Definition ofZ (z : Z) : Number :=
  SF2Prim (binary_normalize prec emax z 0 false).

Definition ofNat (n : nat) : Number := ofZ (Z.of_nat n).

(** Relational operators on Numbers; every comparison with NaN is false. *)
Definition lt (a b : Number) : bool := PrimFloat.ltb a b.
Definition le (a b : Number) : bool := PrimFloat.leb a b.
Definition gt (a b : Number) : bool := PrimFloat.ltb b a.
Definition ge (a b : Number) : bool := PrimFloat.leb b a.
Definition strictEq (a b : Number) : bool := PrimFloat.eqb a b.

(** [Math.round]: the nearest integer, ties towards +infinity; NaN, the
    infinities, the zeros and integers are returned unchanged, and a
    result of zero keeps the sign of the argument. *)
Definition Math_round (x : Number) : Number :=
  match Prim2SF x with
  | S754_finite s m e =>
      if (0 <=? e)%Z then x
      else
        let num := if s then Zneg m else Zpos m in
        let n := ((2 * num + 2 ^ (- e)) / 2 ^ (1 - e))%Z in
        if (n =? 0)%Z then (if s then neg_zero else zero) else ofZ n
  | _ => x
  end.

(** [Math.max] and [Math.min] of two Numbers: NaN is contagious and
    +0 is larger than -0. *)
Definition Math_max (a b : Number) : Number :=
  if is_nan a || is_nan b then nan
  else if lt a b then b
  else if lt b a then a
  else if get_sign a then b else a.

Definition Math_min (a b : Number) : Number :=
  if is_nan a || is_nan b then nan
  else if lt a b then a
  else if lt b a then b
  else if get_sign a then a else b.

(** [Math.max(...xs)]: -Infinity for the empty argument list. *)
Definition Math_max_list (xs : list Number) : Number :=
  fold_left Math_max xs neg_infinity.

Definition Math_abs (x : Number) : Number := PrimFloat.abs x.
Definition Math_sqrt (x : Number) : Number := PrimFloat.sqrt x.

(** The mathematical integer of an integer-valued Number. *)
Definition toInteger (x : Number) : Z :=
  match Prim2SF x with
  | S754_finite s m e =>
      let num := if s then Zneg m else Zpos m in
      if (0 <=? e)%Z then (num * 2 ^ e)%Z else (num / 2 ^ (- e))%Z
  | _ => 0%Z
  end.

(** Number-to-string conversion inside a template literal, on the
    values [Math.round] returns: NaN, the infinities and integers
    below 10^21 in magnitude (larger integers print in exponent
    notation in JavaScript, which this function does not produce). *)
Definition Number_toString (x : Number) : string :=
  match Prim2SF x with
  | S754_nan => "NaN"
  | S754_infinity false => "Infinity"
  | S754_infinity true => "-Infinity"
  | S754_zero _ => "0"
  | S754_finite _ _ _ => pretty (toInteger x)
  end.

(** Truthiness of a string: only the empty string is falsy. *)
Definition truthy (s : string) : bool :=
  match s with EmptyString => false | String _ _ => true end.

(** *** Strings, buffers and base64

    A string is a sequence of code units below 256; [Buffer.from]
    encodes it in UTF-8, so a code unit from 128 on takes two bytes. *)

Definition utf8 (c : ascii) : list N :=
  let n := N_of_ascii c in
  if (n <? 128)%N then [n] else [(192 + n / 64)%N; (128 + n mod 64)%N].

Fixpoint Buffer_from (s : string) : list N :=
  match s with
  | EmptyString => []
  | String c rest => (utf8 c ++ Buffer_from rest)%list
  end.

Definition base64_alphabet : string :=
  "ABCDEFGHIJKLMNOPQRSTUVWXYZabcdefghijklmnopqrstuvwxyz0123456789+/".

Definition base64_digit (n : N) : ascii :=
  match String.get (N.to_nat n) base64_alphabet with
  | Some c => c
  | None => "="%char
  end.

(** [buf.toString('base64')]: three bytes give four digits; a final
    group of one or two bytes is padded with '='. *)
Fixpoint toString_base64 (bytes : list N) : string :=
  match bytes with
  | [] => ""
  | [a] =>
      String (base64_digit (a / 4))
        (String (base64_digit ((a mod 4) * 16)) "==")
  | [a; b] =>
      String (base64_digit (a / 4))
        (String (base64_digit ((a mod 4) * 16 + b / 16))
           (String (base64_digit ((b mod 16) * 4)) "="))
  | a :: b :: c :: rest =>
      String (base64_digit (a / 4))
        (String (base64_digit ((a mod 4) * 16 + b / 16))
           (String (base64_digit ((b mod 16) * 4 + c / 64))
              (String (base64_digit (c mod 64)) (toString_base64 rest))))
  end%N.

(** [s.substring(0, n)]: the first [n] code units, or all of [s]. *)
Definition substring0 (n : nat) (s : string) : string :=
  String.substring 0 n s.

(** [Array.prototype.sort] without a comparator on an array of
    strings: ascending by code units, stable. *)
Fixpoint sort_insert (x : string) (sorted : list string) : list string :=
  match sorted with
  | [] => [x]
  | y :: rest =>
      if String.leb x y then x :: y :: rest else y :: sort_insert x rest
  end.

Definition Array_sort (xs : list string) : list string :=
  fold_right sort_insert [] xs.

Definition Array_join (sep : string) (xs : list string) : string :=
  String.concat sep xs.

(** [new Date()] reads the clock; the instant is passed in. *)
Definition Date := Z.
Bind Scope Z_scope with Date.

End JS.

Import JS.
Local Open Scope float_scope.

(** ** Data model (models/Assessment.js and the stored response) *)

Module Dimension.
Record t := mk {
  dimensionId : string;
  name : string;
  description : string;
  itemIds : list string
}.
End Dimension.

Module Item.
Record t := mk {
  itemId : string;
  text : string;
  dimensionId : string;
  isReversed : bool;
  weight : Number;
  minValue : Number;
  maxValue : Number
}.
End Item.

Module Assessment.
Record t := mk {
  assessmentId : string;
  title : string;
  description : string;
  dimensions : list Dimension.t;
  items : list Item.t
}.
End Assessment.

(** An answer's value is [None] when it is null or undefined. *)
Module Answer.
Record t := mk {
  itemId : string;
  value : option Number;
  answeredAt : Date
}.
End Answer.

Module Metadata.
Record t := mk {
  startedAt : option Date;
  timeSpent : option Number
}.
(** The default parameter value [{}]. *)
Definition empty : t := mk None None.
End Metadata.

Module DimensionScore.
Record t := mk {
  dimensionId : string;
  name : string;
  rawScore : Number;
  normalizedScore : Number;
  percentile : Number
}.
End DimensionScore.

Module ScoreSet.
Record t := mk {
  dimensions : list DimensionScore.t;
  overallScore : Number;
  computedAt : Date
}.
End ScoreSet.

Module Check.
Record t := mk {
  checkName : string;
  passed : bool;
  score : Number;
  message : string
}.
End Check.

Module Reliability.
Record t := mk {
  isUsable : bool;
  overallRating : string;
  checks : list Check.t;
  flags : list string;
  checkedAt : Date
}.
End Reliability.

Module Response.
Record t := mk {
  responseId : string;
  userId : string;
  assessmentId : string;
  answers : list Answer.t;
  scores : ScoreSet.t;
  reliability : Reliability.t;
  metadata : Metadata.t
}.
End Response.

(** ** scoringService.js *)

Section Scoring.

(** [Math.exp] is implementation-approximated in ECMAScript, so the
    scoring functions are stated over an arbitrary engine. *)
Variable Math_exp : Number -> Number.

Definition reverseScore (value minValue maxValue : Number) : Number :=
  (maxValue + minValue) - value.

Definition normalizeScore (rawScore minPossible maxPossible : Number)
  : Number :=
  if strictEq maxPossible minPossible then 50
  else ((rawScore - minPossible) / (maxPossible - minPossible)) * 100.

Definition normalCDF (z : Number) : Number :=
  let t := 1 / (1 + 0.2316419 * Math_abs z) in
  let d := 0.3989423 * Math_exp (- z * z / 2) in
  let prob :=
    d * t * (0.3193815 + t * (-0.3565638 + t * (1.781478
               + t * (-1.821256 + t * 1.330274)))) in
  if gt z 0 then 1 - prob else prob.

Definition calculatePercentile (normalizedScore : Number) : Number :=
  let mean := 50 in
  let stdDev := 15 in
  let z := (normalizedScore - mean) / stdDev in
  normalCDF z * 100.

Definition zeroScore (dimension : Dimension.t) : DimensionScore.t :=
  DimensionScore.mk (Dimension.dimensionId dimension)
    (Dimension.name dimension) 0 0 0.

(** One pass of the loop over the dimension's items: the accumulator
    is (rawScore, answeredCount). *)
Definition scoreItem (answers : list Answer.t)
    (acc : Number * nat) (item : Item.t) : Number * nat :=
  let '(rawScore, answeredCount) := acc in
  match List.find (fun a => String.eqb (Answer.itemId a) (Item.itemId item))
          answers with
  | Some answer =>
      match Answer.value answer with
      | Some v =>
          let value :=
            if Item.isReversed item
            then reverseScore v (Item.minValue item) (Item.maxValue item)
            else v in
          (rawScore + value * Item.weight item, S answeredCount)
      | None => acc
      end
  | None => acc
  end.

Definition calculateDimensionScore (dimension : Dimension.t)
    (answers : list Answer.t) (allItems : list Item.t)
  : DimensionScore.t :=
  let items :=
    List.filter
      (fun item => String.eqb (Item.dimensionId item)
                     (Dimension.dimensionId dimension)) allItems in
  match items with
  | [] => zeroScore dimension
  | _ :: _ =>
      let '(rawScore, answeredCount) :=
        fold_left (scoreItem answers) items (0, O) in
      match answeredCount with
      | O => zeroScore dimension
      | S _ =>
          let minPossible :=
            fold_left
              (fun sum item => sum + Item.minValue item * Item.weight item)
              items 0 in
          let maxPossible :=
            fold_left
              (fun sum item => sum + Item.maxValue item * Item.weight item)
              items 0 in
          let normalizedScore :=
            normalizeScore rawScore minPossible maxPossible in
          let percentile := calculatePercentile normalizedScore in
          DimensionScore.mk (Dimension.dimensionId dimension)
            (Dimension.name dimension)
            (Math_round (rawScore * 100) / 100)
            (Math_round (normalizedScore * 100) / 100)
            (Math_round percentile)
      end
  end.

Definition calculateOverallScore (dimensionScores : list DimensionScore.t)
  : Number :=
  match dimensionScores with
  | [] => 0
  | _ :: _ =>
      let sum :=
        fold_left
          (fun total dim => total + DimensionScore.normalizedScore dim)
          dimensionScores 0 in
      let average := sum / ofNat (length dimensionScores) in
      Math_round (average * 100) / 100
  end.

(** [grouped] is an object keyed by dimension identifier; an answer
    whose item is unknown, or whose item has an empty dimension
    identifier, is dropped.  (Identifiers are taken not to be names of
    Object.prototype members such as "constructor", which a plain
    object used as a dictionary inherits.) *)
Definition groupByDimension (assessment : Assessment.t)
    (answers : list Answer.t) : gmap string (list Answer.t) :=
  fold_left
    (fun (grouped : gmap string (list Answer.t)) answer =>
       match List.find
               (fun i => String.eqb (Item.itemId i) (Answer.itemId answer))
               (Assessment.items assessment) with
       | Some item =>
           if truthy (Item.dimensionId item)
           then <[ Item.dimensionId item :=
                     (default [] (grouped !! Item.dimensionId item)
                        ++ [answer])%list ]> grouped
           else grouped
       | None => grouped
       end)
    answers ∅.

Definition scoreAssessment (now : Date) (assessment : Assessment.t)
    (answers : list Answer.t) : ScoreSet.t :=
  let groupedAnswers := groupByDimension assessment answers in
  let dimensionScores :=
    List.map
      (fun dimension =>
         let dimAnswers :=
           default [] (groupedAnswers !! Dimension.dimensionId dimension) in
         calculateDimensionScore dimension dimAnswers
           (Assessment.items assessment))
      (Assessment.dimensions assessment) in
  ScoreSet.mk dimensionScores (calculateOverallScore dimensionScores) now.

End Scoring.

(** ** reliabilityService.js *)

Section ReliabilityService.

(** [Math.pow] is implementation-approximated as well. *)
Variable Math_pow : Number -> Number -> Number.

Definition createCheck (checkName : string) (passed : bool)
    (score : Number) (message : string) : Check.t :=
  Check.mk checkName passed (Math_round (score * 100) / 100) message.

Definition answered (a : Answer.t) : bool :=
  match Answer.value a with Some _ => true | None => false end.

(** [valueCounts] is an object keyed by the answer value, that is by
    the string the value converts to: two Numbers share a key when
    they are equal (so do +0 and -0) or both NaN. *)
Definition sameKey (k val : Number) : bool :=
  strictEq k val || (is_nan k && is_nan val).

Fixpoint countValue (val : Number) (valueCounts : list (Number * Number))
  : list (Number * Number) :=
  match valueCounts with
  | [] => [(val, 0 + 1)]
  | (k, n) :: rest =>
      if sameKey k val then (k, n + 1) :: rest
      else (k, n) :: countValue val rest
  end.

Definition checkStraightlining (answers : list Answer.t) : Check.t :=
  match answers with
  | [] => createCheck "straightlining" false 0 "No answers provided"
  | _ :: _ =>
      let valueCounts :=
        fold_left
          (fun counts answer =>
             match Answer.value answer with
             | Some val => countValue val counts
             | None => counts
             end)
          answers [] in
      let counts := List.map snd valueCounts in
      let maxCount := Math_max_list counts in
      let totalAnswers := ofNat (length answers) in
      let straightlinePercent := (maxCount / totalAnswers) * 100 in
      let passed := le straightlinePercent 80 in
      let score :=
        if passed then 100 else Math_max 0 (100 - straightlinePercent) in
      let message :=
        if passed then "Good response variation"
        else (Number_toString (Math_round straightlinePercent)
              ++ "% answers are identical - possible straightlining")%string
      in
      createCheck "straightlining" passed score message
  end.

(** [answers.filter(a => a.value != null).map(a => a.value)]. *)
Definition answeredValues (answers : list Answer.t) : list Number :=
  List.flat_map
    (fun a => match Answer.value a with Some v => [v] | None => [] end)
    answers.

Definition checkVariability (answers : list Answer.t)
    (items : list Item.t) : Check.t :=
  let values := answeredValues answers in
  if (length values <? 3)%nat
  then createCheck "variability" false 0 "Not enough answers"
  else
    let mean :=
      fold_left (fun sum v => sum + v) values 0 / ofNat (length values) in
    let variance :=
      fold_left (fun sum v => sum + Math_pow (v - mean) 2) values 0
      / ofNat (length values) in
    let stdDev := Math_sqrt variance in
    let '(sampleMin, sampleMax) :=
      match items with
      | item :: _ => (Item.minValue item, Item.maxValue item)
      | [] => (1, 5)
      end in
    let scaleRange := sampleMax - sampleMin in
    let normalizedSD := stdDev / scaleRange in
    let passed := ge normalizedSD 0.15 in
    let score := Math_min 100 (normalizedSD * 400) in
    let message :=
      if passed then "Adequate response variability"
      else "Low response variability - answers too similar" in
    createCheck "variability" passed score message.

(** [itemMap]: item identifier to (min, max); a later item with the
    same identifier overwrites an earlier one. *)
Definition buildItemMap (items : list Item.t)
  : gmap string (Number * Number) :=
  fold_left
    (fun (itemMap : gmap string (Number * Number)) item =>
       <[ Item.itemId item := (Item.minValue item, Item.maxValue item) ]>
         itemMap)
    items ∅.

(** One pass of the counting loop: the accumulator is
    (extremeCount, totalCount). *)
Definition countExtreme (itemMap : gmap string (Number * Number))
    (acc : nat * nat) (answer : Answer.t) : nat * nat :=
  let '(extremeCount, totalCount) := acc in
  match Answer.value answer with
  | Some value =>
      match itemMap !! Answer.itemId answer with
      | Some (min, max) =>
          if strictEq value min || strictEq value max
          then (S extremeCount, S totalCount)
          else (extremeCount, S totalCount)
      | None => acc
      end
  | None => acc
  end.

Definition checkExtremeResponding (answers : list Answer.t)
    (items : list Item.t) : Check.t :=
  match answers with
  | [] => createCheck "extreme_responding" false 0 "No answers"
  | _ :: _ =>
      let itemMap := buildItemMap items in
      let '(extremeCount, totalCount) :=
        fold_left (countExtreme itemMap) answers (O, O) in
      let extremePercent :=
        if (0 <? totalCount)%nat
        then (ofNat extremeCount / ofNat totalCount) * 100
        else 0 in
      let passed := le extremePercent 70 in
      let score :=
        if passed then 100 else Math_max 0 (100 - extremePercent) in
      let message :=
        if passed then "Appropriate use of scale"
        else (Number_toString (Math_round extremePercent)
              ++ "% extreme values - possible bias")%string in
      createCheck "extreme_responding" passed score message
  end.

Definition checkCompletionRate (answers : list Answer.t)
    (items : list Item.t) : Check.t :=
  let totalItems := ofNat (length items) in
  let answeredItems := ofNat (length (List.filter answered answers)) in
  let completionPercent := (answeredItems / totalItems) * 100 in
  let passed := ge completionPercent 80 in
  let score := completionPercent in
  let message :=
    if passed
    then (Number_toString (Math_round completionPercent)
          ++ "% completion rate")%string
    else ("Only " ++ Number_toString (Math_round completionPercent)
          ++ "% completed - too many skipped")%string in
  createCheck "completion_rate" passed score message.

Definition checkResponseTime (timeSpent itemCount : Number) : Check.t :=
  let avgTimePerItem := timeSpent / itemCount in
  let minTimePerItem := 2 in
  let passed := ge avgTimePerItem minTimePerItem in
  let score := Math_min 100 ((avgTimePerItem / minTimePerItem) * 100) in
  let message :=
    if passed
    then ("Average " ++ Number_toString (Math_round avgTimePerItem)
          ++ "s per item - adequate time")%string
    else ("Only " ++ Number_toString (Math_round avgTimePerItem)
          ++ "s per item - possible rushing")%string in
  createCheck "response_time" passed score message.

Definition calculateOverallRating (checks : list Check.t) : string :=
  let passedCount := ofNat (length (List.filter Check.passed checks)) in
  let totalChecks := ofNat (length checks) in
  let passRate := passedCount / totalChecks in
  if ge passRate 0.9 then "excellent"
  else if ge passRate 0.7 then "good"
  else if ge passRate 0.5 then "questionable"
  else "poor".

Definition generateFlags (checks : list Check.t) : list string :=
  List.map Check.checkName
    (List.filter (fun check => negb (Check.passed check)) checks).

Definition checkReliability (now : Date) (assessment : Assessment.t)
    (answers : list Answer.t) (metadata : Metadata.t) : Reliability.t :=
  let items := Assessment.items assessment in
  let checks :=
    [ checkStraightlining answers;
      checkVariability answers items;
      checkExtremeResponding answers items;
      checkCompletionRate answers items ] in
  let checks :=
    match Metadata.timeSpent metadata with
    | Some timeSpent =>
        if gt timeSpent 0
        then (checks
              ++ [checkResponseTime timeSpent (ofNat (length items))])%list
        else checks
    | None => checks
    end in
  let overallRating := calculateOverallRating checks in
  let isUsable := negb (String.eqb overallRating "poor") in
  let flags := generateFlags checks in
  Reliability.mk isUsable overallRating checks flags now.

End ReliabilityService.

(** ** shareService.js *)

Module DimensionSummary.
(** [percentile] is [None] when the source stores [undefined]. *)
Record t := mk {
  name : string;
  score : Number;
  percentile : option Number;
  level : string;
  description : string
}.
End DimensionSummary.

Module SharePayload.
Record t := mk {
  profileId : string;
  userId : string;
  assessmentVersion : string;
  overallScore : Number;
  dimensions : list DimensionSummary.t;
  profileStrength : string;
  generatedAt : Date;
  disclaimer : string
}.
End SharePayload.

Module ShareError.
Record t := mk { error : string; rating : string }.
End ShareError.

Module DimensionComparison.
Record t := mk {
  dimensionId : string;
  dimensionName : string;
  profile1Score : Number;
  profile2Score : Number;
  difference : Number;
  similarity : Number;
  category : string;
  interpretation : string
}.
End DimensionComparison.

Module Strongest.
Record t := mk { dimension : string; score : Number }.
End Strongest.

Module ProfileRef.
Record t := mk { profileId : string; userId : string }.
End ProfileRef.

Module Summary.
Record t := mk {
  similarAreas : list string;
  differentAreas : list string;
  strongestSimilarity : option Strongest.t;
  largestDifference : option Strongest.t
}.
End Summary.

Module ComparePayload.
Record t := mk {
  comparisonId : string;
  profile1 : ProfileRef.t;
  profile2 : ProfileRef.t;
  overallSimilarity : Number;
  compatibilityLevel : string;
  dimensions : list DimensionComparison.t;
  summary : Summary.t;
  generatedAt : Date;
  disclaimer : string
}.
End ComparePayload.

Module CompareError.
Record t := mk { error : string }.
End CompareError.

(** What the two generators return: the error object or the payload. *)
Inductive ShareResult :=
| ShareFailure (e : ShareError.t)
| ShareProfile (p : SharePayload.t).

Inductive CompareResult :=
| CompareFailure (e : CompareError.t)
| Comparison (p : ComparePayload.t).

Definition getScoreLevel (normalizedScore : Number) : string :=
  if ge normalizedScore 80 then "very_high"
  else if ge normalizedScore 60 then "high"
  else if ge normalizedScore 40 then "moderate"
  else if ge normalizedScore 20 then "low"
  else "very_low".

Definition getScoreDescription (dimensionName : string) (score : Number)
  : string :=
  let level := getScoreLevel score in
  if String.eqb level "very_high"
  then ("Very strong in " ++ dimensionName)%string
  else if String.eqb level "high"
  then ("Above average in " ++ dimensionName)%string
  else if String.eqb level "moderate"
  then ("Moderate " ++ dimensionName)%string
  else if String.eqb level "low"
  then ("Below average in " ++ dimensionName)%string
  else if String.eqb level "very_low"
  then ("Low " ++ dimensionName)%string
  else "Score available".

Definition getSimilarityCategory (similarity : Number) : string :=
  if ge similarity 90 then "very_similar"
  else if ge similarity 75 then "similar"
  else if ge similarity 50 then "somewhat_different"
  else "very_different".

Definition getCompatibilityLevel (overallSimilarity : Number) : string :=
  if ge overallSimilarity 85 then "very_high"
  else if ge overallSimilarity 70 then "high"
  else if ge overallSimilarity 50 then "moderate"
  else if ge overallSimilarity 30 then "low"
  else "very_low".

Definition getComparisonInterpretation (dimensionName : string)
    (score1 score2 : Number) : string :=
  let diff := Math_abs (score1 - score2) in
  if lt diff 10 then ("Very similar " ++ dimensionName)%string
  else if lt diff 25 then ("Slight difference in " ++ dimensionName)%string
  else if lt diff 40 then ("Moderate difference in " ++ dimensionName)%string
  else ("Significant difference in " ++ dimensionName)%string.

Definition getProfileStrength (dimensions : list DimensionScore.t) : string :=
  let avgDeviation :=
    fold_left
      (fun sum dim =>
         sum + Math_abs (DimensionScore.normalizedScore dim - 50))
      dimensions 0
    / ofNat (length dimensions) in
  if ge avgDeviation 25 then "very_defined"
  else if ge avgDeviation 15 then "defined"
  else if ge avgDeviation 10 then "moderate"
  else "balanced".

Definition compareDimensions (dimensions1 dimensions2 : list DimensionScore.t)
  : list DimensionComparison.t :=
  List.flat_map
    (fun dim1 =>
       match List.find
               (fun d => String.eqb (DimensionScore.dimensionId d)
                           (DimensionScore.dimensionId dim1))
               dimensions2 with
       | Some dim2 =>
           let diff :=
             Math_abs (DimensionScore.normalizedScore dim1
                       - DimensionScore.normalizedScore dim2) in
           let similarity := 100 - diff in
           [ DimensionComparison.mk
               (DimensionScore.dimensionId dim1)
               (DimensionScore.name dim1)
               (DimensionScore.normalizedScore dim1)
               (DimensionScore.normalizedScore dim2)
               (Math_round diff)
               (Math_round similarity)
               (getSimilarityCategory similarity)
               (getComparisonInterpretation (DimensionScore.name dim1)
                  (DimensionScore.normalizedScore dim1)
                  (DimensionScore.normalizedScore dim2)) ]
       | None => []
       end)
    dimensions1.

Definition calculateOverallSimilarity
    (comparisons : list DimensionComparison.t) : Number :=
  match comparisons with
  | [] => 0
  | _ :: _ =>
      let sum :=
        fold_left (fun total comp => total + DimensionComparison.similarity comp)
          comparisons 0 in
      sum / ofNat (length comparisons)
  end.

(** [findStrongest(comparisons, type)]: [reduce] without an initial
    value starts from the first element and keeps the earlier one on a
    tie. *)
Definition findStrongest (comparisons : list DimensionComparison.t)
    (type : string) : option Strongest.t :=
  match comparisons with
  | [] => None
  | first :: rest =>
      if String.eqb type "similarity" then
        let strongest :=
          fold_left
            (fun max comp =>
               if gt (DimensionComparison.similarity comp)
                     (DimensionComparison.similarity max)
               then comp else max)
            rest first in
        Some (Strongest.mk (DimensionComparison.dimensionName strongest)
                (DimensionComparison.similarity strongest))
      else
        let largest :=
          fold_left
            (fun max comp =>
               if gt (DimensionComparison.difference comp)
                     (DimensionComparison.difference max)
               then comp else max)
            rest first in
        Some (Strongest.mk (DimensionComparison.dimensionName largest)
                (DimensionComparison.difference largest))
  end.

Definition generateProfileId (responseId : string) : string :=
  let hash := substring0 12 (toString_base64 (Buffer_from responseId)) in
  ("profile_" ++ hash)%string.

Definition generateComparisonId (responseId1 responseId2 : string) : string :=
  let combined := Array_join "_" (Array_sort [responseId1; responseId2]) in
  let hash := substring0 16 (toString_base64 (Buffer_from combined)) in
  ("compare_" ++ hash)%string.

Definition generateSharePayload (now : Date)
    (assessmentResponse : Response.t) (includePercentiles : bool)
  : ShareResult :=
  let reliability := Response.reliability assessmentResponse in
  if negb (Reliability.isUsable reliability)
  then ShareFailure
         (ShareError.mk "Response quality too low to share"
            (Reliability.overallRating reliability))
  else
    let scores := Response.scores assessmentResponse in
    let dimensions :=
      List.map
        (fun dim =>
           DimensionSummary.mk
             (DimensionScore.name dim)
             (DimensionScore.normalizedScore dim)
             (if includePercentiles
              then Some (DimensionScore.percentile dim) else None)
             (getScoreLevel (DimensionScore.normalizedScore dim))
             (getScoreDescription (DimensionScore.name dim)
                (DimensionScore.normalizedScore dim)))
        (ScoreSet.dimensions scores) in
    ShareProfile
      (SharePayload.mk
         (generateProfileId (Response.responseId assessmentResponse))
         (Response.userId assessmentResponse)
         (Response.assessmentId assessmentResponse)
         (ScoreSet.overallScore scores)
         dimensions
         (getProfileStrength (ScoreSet.dimensions scores))
         now
         "For informational purposes only. Not for clinical diagnosis.").

Definition generateComparePayload (now : Date)
    (response1 response2 : Response.t) : CompareResult :=
  if negb (Reliability.isUsable (Response.reliability response1))
     || negb (Reliability.isUsable (Response.reliability response2))
  then CompareFailure
         (CompareError.mk "One or both profiles have insufficient quality")
  else
    let dimensionComparisons :=
      compareDimensions
        (ScoreSet.dimensions (Response.scores response1))
        (ScoreSet.dimensions (Response.scores response2)) in
    let overallSimilarity :=
      calculateOverallSimilarity dimensionComparisons in
    let similarities :=
      List.filter (fun d => ge (DimensionComparison.similarity d) 75)
        dimensionComparisons in
    let differences :=
      List.filter (fun d => lt (DimensionComparison.similarity d) 75)
        dimensionComparisons in
    Comparison
      (ComparePayload.mk
         (generateComparisonId (Response.responseId response1)
            (Response.responseId response2))
         (ProfileRef.mk
            (generateProfileId (Response.responseId response1))
            (Response.userId response1))
         (ProfileRef.mk
            (generateProfileId (Response.responseId response2))
            (Response.userId response2))
         (Math_round overallSimilarity)
         (getCompatibilityLevel overallSimilarity)
         dimensionComparisons
         (Summary.mk
            (List.map DimensionComparison.dimensionName similarities)
            (List.map DimensionComparison.dimensionName differences)
            (findStrongest dimensionComparisons "similarity")
            (findStrongest dimensionComparisons "difference"))
         now
         "For informational purposes only.").

(** ** A sample engine

    One admissible [Math.exp]: the special values ECMAScript prescribes
    (NaN, the zeros, the infinities) and, elsewhere, the Taylor
    polynomial of degree 20 at x/1024 raised to the power 1024 by ten
    squarings.  It instantiates the statements below that are made for
    every engine whose [Math.exp] maps -0 to 1. *)

Module Engine.

Fixpoint horner (terms : nat) (n : Z) (x : Number) : Number :=
  match terms with
  | O => 1
  | S terms' => 1 + x / ofZ n * horner terms' (n + 1) x
  end.

Fixpoint squarings (k : nat) (y : Number) : Number :=
  match k with
  | O => y
  | S k' => let y' := squarings k' y in y' * y'
  end.

Definition exp (x : Number) : Number :=
  if is_nan x then nan
  else if strictEq x 0 then 1
  else if strictEq x infinity then infinity
  else if strictEq x neg_infinity then 0
  else squarings 10 (horner 20 1 (x / 1024)).

End Engine.

(** ** The sample assessment (assessmentController.js) *)

Module Sample.

Definition dimensions : list Dimension.t :=
  [ Dimension.mk "extraversion" "Extraversion"
      "Tendency to seek stimulation and enjoy company of others"
      ["q1"; "q2"; "q3"];
    Dimension.mk "agreeableness" "Agreeableness"
      "Tendency to be compassionate and cooperative"
      ["q4"; "q5"; "q6"];
    Dimension.mk "conscientiousness" "Conscientiousness"
      "Tendency to be organized and dependable"
      ["q7"; "q8"; "q9"] ]%string.

Definition items : list Item.t :=
  [ Item.mk "q1" "I am the life of the party" "extraversion" false 1.0 1 5;
    Item.mk "q2" "I prefer to be alone" "extraversion" true 1.0 1 5;
    Item.mk "q3" "I talk to many people at parties" "extraversion"
      false 1.0 1 5;
    Item.mk "q4" "I am interested in people" "agreeableness" false 1.0 1 5;
    Item.mk "q5" "I insult people" "agreeableness" true 1.0 1 5;
    Item.mk "q6" "I sympathize with others" "agreeableness" false 1.0 1 5;
    Item.mk "q7" "I am always prepared" "conscientiousness" false 1.0 1 5;
    Item.mk "q8" "I leave my belongings around" "conscientiousness"
      true 1.0 1 5;
    Item.mk "q9" "I pay attention to details" "conscientiousness"
      false 1.0 1 5 ].

Definition personality_v1 : Assessment.t :=
  Assessment.mk "personality-v1" "Big Five Personality Test"
    "Measures personality across five major dimensions" dimensions items.

(** The submission [5,2,4,5,1,4,5,2,4] for q1..q9, answered at [at_]. *)
Definition answers (at_ : Date) : list Answer.t :=
  List.map (fun '(itemId, v) => Answer.mk itemId (Some v) at_)
    [ ("q1", 5); ("q2", 2); ("q3", 4); ("q4", 5); ("q5", 1);
      ("q6", 4); ("q7", 5); ("q8", 2); ("q9", 4) ]%string.

(** A definition without any item, and one with the single item q1. *)
Definition noItems : Assessment.t :=
  Assessment.mk "empty-v1" "Empty" "An assessment without items" [] [].

Definition oneItem : Assessment.t :=
  Assessment.mk "single-v1" "Single" "An assessment with one item"
    [Dimension.mk "extraversion" "Extraversion" "" ["q1"]%string]
    [Item.mk "q1" "I am the life of the party" "extraversion" false 1.0 1 5].

(** An answer list that is not empty but holds no answered value. *)
Definition skipped : list Answer.t := [Answer.mk "q1" None 0].

(** Two answers to the same item q1. *)
Definition repeated : list Answer.t :=
  [Answer.mk "q1" (Some 3) 0; Answer.mk "q1" (Some 4) 0].

(** A response as submitAssessment stores it for the submission above
    (180 seconds spent), scored on the sample engine, with the rating
    and usability flag given. *)
Definition stored (responseId userId rating : string) (isUsable : bool)
  : Response.t :=
  Response.mk responseId userId "personality-v1" (answers 0)
    (scoreAssessment Engine.exp 0 personality_v1 (answers 0))
    (Reliability.mk isUsable rating
       [ checkStraightlining (answers 0);
         Check.mk "variability" true 100 "Adequate response variability";
         checkExtremeResponding (answers 0) items;
         checkCompletionRate (answers 0) items;
         checkResponseTime 180 9 ]
       (if isUsable then []
        else ["straightlining"; "variability"; "extreme_responding"]%string)
       0)
    (Metadata.mk None (Some 180)).

Definition alice : Response.t :=
  stored "550e8400-e29b-41d4-a716-446655440000" "user-123" "excellent" true.

Definition bob : Response.t :=
  stored "660e8400-e29b-41d4-a716-446655440001" "user-456" "good" true.

Definition mallory : Response.t :=
  stored "770e8400-e29b-41d4-a716-446655440002" "user-789" "poor" false.

End Sample.

(** A score that is a number from 0 to 100; NaN fails both tests. *)
Definition inRange (score : Number) : bool := le 0 score && le score 100.

(** ** assessmentController.js: validateAnswers *)

(** An answer of the request body: [answeredAt] may be missing. *)
Module RawAnswer.
Record t := mk {
  itemId : string;
  value : option Number;
  answeredAt : option Date
}.
End RawAnswer.

(** What validateAnswers throws.  The Error's message is
    "Invalid itemId: <itemId>" for the first form and
    "Value <value> out of range for item <itemId> (valid: <min>-<max>)"
    for the second; the error records what the message is built from. *)
Inductive ValidationError :=
| InvalidItemId (itemId : string)
| OutOfRange (value : Number) (itemId : string) (minValue maxValue : Number).

(** The outcome of a call that may throw. *)
Inductive Completion (A : Type) :=
| Throw (e : ValidationError)
| Return (a : A).
Arguments Throw {A} e.
Arguments Return {A} a.

(** [xs.map(f)] with a callback that may throw: the first throw, in
    array order, ends the call. *)
Fixpoint Array_map_throwing {A B : Type} (f : A -> Completion B)
    (xs : list A) : Completion (list B) :=
  match xs with
  | [] => Return []
  | x :: rest =>
      match f x with
      | Throw e => Throw e
      | Return y =>
          match Array_map_throwing f rest with
          | Throw e => Throw e
          | Return ys => Return (y :: ys)
          end
      end
  end.

(** [itemMap] of validateAnswers: item identifier to item; a later item
    with the same identifier overwrites an earlier one. *)
Definition indexItems (items : list Item.t) : gmap string Item.t :=
  fold_left
    (fun (itemMap : gmap string Item.t) item =>
       <[ Item.itemId item := item ]> itemMap)
    items ∅.

(** The callback of validateAnswers; a missing [answeredAt] becomes the
    current instant. *)
Definition validateAnswer (now : Date) (itemMap : gmap string Item.t)
    (answer : RawAnswer.t) : Completion Answer.t :=
  match itemMap !! RawAnswer.itemId answer with
  | None => Throw (InvalidItemId (RawAnswer.itemId answer))
  | Some item =>
      let validated :=
        Answer.mk (RawAnswer.itemId answer) (RawAnswer.value answer)
          (default now (RawAnswer.answeredAt answer)) in
      match RawAnswer.value answer with
      | Some value =>
          if lt value (Item.minValue item) || gt value (Item.maxValue item)
          then Throw (OutOfRange value (RawAnswer.itemId answer)
                        (Item.minValue item) (Item.maxValue item))
          else Return validated
      | None => Return validated
      end
  end.

Definition validateAnswers (now : Date) (answers : list RawAnswer.t)
    (items : list Item.t) : Completion (list Answer.t) :=
  Array_map_throwing (validateAnswer now (indexItems items)) answers.

(** [Number.isFinite]: neither NaN nor an infinity. *)
Definition isFinite (x : Number) : bool := PrimFloat.is_finite x.

(** ** Vocabulary of the statements about the services *)

(** The entry compareDimensions makes for a dimension compared with
    itself. *)
Definition selfComparison (d : DimensionScore.t) : DimensionComparison.t :=
  DimensionComparison.mk
    (DimensionScore.dimensionId d) (DimensionScore.name d)
    (DimensionScore.normalizedScore d) (DimensionScore.normalizedScore d)
    0 100 "very_similar" ("Very similar " ++ DimensionScore.name d)%string.

(** The rating that goes with a number of failed checks, when four or
    five checks were run. *)
Definition ratingOfFailures (failed : nat) : string :=
  match failed with
  | 0%nat => "excellent"
  | 1%nat => "good"
  | 2%nat => "questionable"
  | _ => "poor"
  end.


(** What validateAnswers returns for an answer it accepts. *)
Definition validated (now : Date) (a : RawAnswer.t) : Answer.t :=
  Answer.mk (RawAnswer.itemId a) (RawAnswer.value a)
    (default now (RawAnswer.answeredAt a)).



(** * Properties *)

(** ** Facts about binary64 arithmetic *)

Lemma opp_involutive (x : Number) : - - x = x.
Proof.
  apply Prim2SF_inj. rewrite !opp_spec.
  destruct (Prim2SF x) as [s | s | | s m e]; simpl;
    rewrite ?negb_involutive; reflexivity.
Qed.

Lemma abs_opp (x : Number) : Math_abs (- x) = Math_abs x.
Proof.
  unfold Math_abs. apply Prim2SF_inj. rewrite !abs_spec, opp_spec.
  destruct (Prim2SF x); reflexivity.
Qed.

Lemma SFmul_comm (x y : spec_float) : SF64mul x y = SF64mul y x.
Proof.
  unfold SF64mul.
  destruct x as [sx | sx | | sx mx ex], y as [sy | sy | | sy my ey]; simpl;
    rewrite ?(xorb_comm sx sy); try reflexivity.
  rewrite (Pos.mul_comm mx my), (Z.add_comm ex ey). reflexivity.
Qed.

Lemma mul_comm (x y : Number) : x * y = y * x.
Proof.
  apply Prim2SF_inj. rewrite !mul_spec. apply SFmul_comm.
Qed.

(** Below zero means not above zero, and the opposite is above zero. *)
Lemma negative_sign (z : Number) :
  lt z 0 = true -> gt z 0 = false /\ gt (- z) 0 = true.
Proof.
  unfold lt, gt. rewrite !ltb_spec, opp_spec.
  change (Prim2SF 0) with (S754_zero false).
  destruct (Prim2SF z) as [s | s | | s m e]; try destruct s; simpl;
    intros H; try discriminate H; split; reflexivity.
Qed.

(** ** Scoring (scoringService.js) *)

Section ScoringFacts.

Variable Math_exp : Number -> Number.

(** ECMAScript fixes [Math.exp(-0)] to 1 on every engine. *)
Hypothesis Math_exp_neg_zero : Math_exp (-0) = 1.

Lemma normalCDF_zero : normalCDF Math_exp 0 = 0.49999985009950998.
Proof.
  unfold normalCDF. cbv zeta.
  replace (- 0 * 0 / 2) with (-0) by reflexivity.
  rewrite Math_exp_neg_zero. reflexivity.
Qed.

(** C7, as the code has it: the percentile of the midpoint score 50
    is 49.999985009950997 (the approximation gives 0.49999985... at
    z = 0, not 1/2); it lies within 0.0001 of 50 and [Math.round], which
    calculateDimensionScore applies to it, makes it exactly 50. *)
Theorem percentile_of_midpoint :
  calculatePercentile Math_exp 50 = 49.999985009950997
  /\ lt 49.9999 (calculatePercentile Math_exp 50) = true
  /\ lt (calculatePercentile Math_exp 50) 50 = true
  /\ Math_round (calculatePercentile Math_exp 50) = 50.
Proof.
  assert (E : calculatePercentile Math_exp 50 = 49.999985009950997).
  { change (calculatePercentile Math_exp 50)
      with (normalCDF Math_exp 0 * 100).
    rewrite normalCDF_zero. reflexivity. }
  rewrite E. repeat split; reflexivity.
Qed.

(** C8, as the code has it: for every z below zero,
    normalCDF(-z) = 1 - normalCDF(z), bit for bit and on every engine
    (the tail term of the approximation does not see the sign of z).
    Read from right to left this is normalCDF(z) = 1 - normalCDF(-z)
    for the positive number z.  The zeros are excluded: there both
    sides of the branch [z > 0] give the tail term itself. *)
Theorem normalCDF_reflect_negative (z : Number) :
  lt z 0 = true -> normalCDF Math_exp (- z) = 1 - normalCDF Math_exp z.
Proof.
  intros Hz. destruct (negative_sign z Hz) as [Hnot Hopp].
  unfold normalCDF. cbv zeta.
  rewrite Hnot, Hopp, abs_opp, opp_involutive, (mul_comm z (- z)).
  reflexivity.
Qed.

End ScoringFacts.

(** C7 on the sample engine. *)
Lemma percentile_of_midpoint_sample :
  calculatePercentile Engine.exp 50 = 49.999985009950997
  /\ lt 49.9999 (calculatePercentile Engine.exp 50) = true
  /\ lt (calculatePercentile Engine.exp 50) 50 = true
  /\ Math_round (calculatePercentile Engine.exp 50) = 50.
Proof.
  exact (percentile_of_midpoint Engine.exp eq_refl).
Defined.

(** C7 as stated fails: calculatePercentile(50) is not 50 under [===],
    and normalCDF(0) is not 1/2.  Only [Math.exp(-0) = 1] enters, which
    holds on every engine. *)
Lemma midpoint_percentile_is_not_50 :
  strictEq (calculatePercentile Engine.exp 50) 50 = false
  /\ strictEq (normalCDF Engine.exp 0) 0.5 = false.
Proof.
  split; vm_compute; reflexivity.
Qed.

(** C8 on the sample engine, at z = -1. *)
Lemma normalCDF_reflect_negative_sample :
  normalCDF Engine.exp (- (-1)) = 1 - normalCDF Engine.exp (-1).
Proof.
  exact (normalCDF_reflect_negative Engine.exp (-1) eq_refl).
Defined.

(** C8 as stated fails at z = 0: normalCDF(-0) and normalCDF(0) are
    both 0.49999985..., so normalCDF(-0) is not 1 - normalCDF(0), and
    the percentiles of the symmetric pair 50 and 100 - 50 do not add up
    to 100. *)
Lemma normalCDF_not_symmetric_at_zero :
  normalCDF Engine.exp (- 0) = 0.49999985009950998
  /\ 1 - normalCDF Engine.exp 0 = 0.50000014990049002
  /\ strictEq (normalCDF Engine.exp (- 0)) (1 - normalCDF Engine.exp 0)
     = false
  /\ strictEq (calculatePercentile Engine.exp 50
               + calculatePercentile Engine.exp (100 - 50)) 100 = false.
Proof.
  repeat split; vm_compute; reflexivity.
Qed.

(** Why C8 is stated from the negative side: above zero the code
    returns the rounded difference 1 - prob, and subtracting that from
    1 again need not give prob back.  On the sample engine, at z = 1,
    the two sides differ in the last digits. *)
Lemma normalCDF_rounding_above_zero :
  normalCDF Engine.exp (- 1) = 0.15865522781137081
  /\ 1 - normalCDF Engine.exp 1 = 0.15865522781137087.
Proof.
  split; vm_compute; reflexivity.
Qed.

(** C6: on personality-v1 and the answers [5,2,4,5,1,4,5,2,4] every
    dimension's raw score is the sum of its three answer values, the
    second one reversed; extraversion gets rawScore 13 and
    normalizedScore 83.33, on every engine and at every instant. *)
Theorem sample_submission_scores (Math_exp : Number -> Number)
    (now at_ : Date) :
  let scores :=
    scoreAssessment Math_exp now Sample.personality_v1 (Sample.answers at_) in
  List.map
    (fun d => (DimensionScore.dimensionId d, DimensionScore.rawScore d,
               DimensionScore.normalizedScore d))
    (ScoreSet.dimensions scores)
  = [ ("extraversion"%string, 5 + reverseScore 2 1 5 + 4, 83.33);
      ("agreeableness"%string, 5 + reverseScore 1 1 5 + 4, 91.67);
      ("conscientiousness"%string, 5 + reverseScore 2 1 5 + 4, 83.33) ]
  /\ 5 + reverseScore 2 1 5 + 4 = 13
  /\ Math_round (normalizeScore 13 3 15 * 100) / 100 = 83.33
  /\ normalizeScore 13 3 15 = ((13 - 3) / (15 - 3)) * 100.
Proof.
  repeat split; vm_compute; reflexivity.
Qed.

(** ** Identifiers (shareService.js) *)

Lemma Array_sort_pair (a b : string) :
  Array_sort [a; b] = Array_sort [b; a].
Proof.
  unfold Array_sort. simpl.
  destruct (String.leb a b) eqn:Hab, (String.leb b a) eqn:Hba;
    try reflexivity.
  - rewrite (String.leb_antisym a b Hab Hba). reflexivity.
  - destruct (String.leb_total a b) as [H | H]; congruence.
Qed.

(** C9: the comparison identifier does not depend on the order of the
    two response identifiers, because they are sorted before they are
    joined and encoded. *)
Theorem generateComparisonId_symmetric (A B : string) :
  generateComparisonId A B = generateComparisonId B A.
Proof.
  unfold generateComparisonId. rewrite (Array_sort_pair A B). reflexivity.
Qed.

(** ** Reliability checks (reliabilityService.js) *)

(** Answers without a value leave both counters of the
    extreme-responding loop untouched. *)
Lemma countExtreme_skips (itemMap : gmap string (Number * Number))
    (answers : list Answer.t) (acc : nat * nat) :
  Forall (fun a => Answer.value a = None) answers ->
  fold_left (countExtreme itemMap) answers acc = acc.
Proof.
  intros H. induction H as [| a rest Ha _ IH]; simpl.
  - reflexivity.
  - replace (countExtreme itemMap acc a) with acc; [exact IH |].
    unfold countExtreme. destruct acc. rewrite Ha. reflexivity.
Qed.

(** C3, as the code has it: on the empty answer list the straightlining
    check and the extreme-responding check both fail with score 0 and a
    message; on a non-empty list without any answered value the
    extreme-responding check divides nothing (its guard on totalCount
    yields 0 percent) and passes with score 100. *)
Theorem checks_without_answered_values (answers : list Answer.t)
    (items : list Item.t) :
  Forall (fun a => Answer.value a = None) answers ->
  (answers = [] ->
     checkStraightlining answers
     = Check.mk "straightlining" false 0 "No answers provided"
     /\ checkExtremeResponding answers items
        = Check.mk "extreme_responding" false 0 "No answers")
  /\ (answers <> [] ->
        checkExtremeResponding answers items
        = Check.mk "extreme_responding" true 100 "Appropriate use of scale").
Proof.
  intros Hnull. split.
  - intros ->. split; reflexivity.
  - intros Hne. destruct answers as [| a rest]; [congruence |].
    unfold checkExtremeResponding.
    rewrite (countExtreme_skips _ _ _ Hnull). reflexivity.
Qed.

(** C3 on the answer list [{itemId: 'q1', value: null}]. *)
Lemma checks_without_answered_values_sample :
  checkExtremeResponding Sample.skipped Sample.items
  = Check.mk "extreme_responding" true 100 "Appropriate use of scale".
Proof.
  apply (checks_without_answered_values Sample.skipped Sample.items).
  - repeat constructor.
  - discriminate.
Defined.

(** C3 as stated fails on [{itemId: 'q1', value: null}], a non-empty
    list without an answered value: both checks pass with score 100. *)
Lemma skipped_answers_pass_both_checks :
  checkStraightlining Sample.skipped
  = Check.mk "straightlining" true 100 "Good response variation"
  /\ checkExtremeResponding Sample.skipped Sample.items
     = Check.mk "extreme_responding" true 100 "Appropriate use of scale".
Proof.
  split; vm_compute; reflexivity.
Qed.

(** C4 fails on the code: without items the completion-rate score is
    NaN (0/0), and with two answers to the only item it is 200; neither
    is a number from 0 to 100. *)
Theorem completion_score_out_of_range :
  checkCompletionRate [] (Assessment.items Sample.noItems)
  = Check.mk "completion_rate" false nan
      "Only NaN% completed - too many skipped"
  /\ inRange (Check.score
                (checkCompletionRate [] (Assessment.items Sample.noItems)))
     = false
  /\ checkCompletionRate Sample.repeated (Assessment.items Sample.oneItem)
     = Check.mk "completion_rate" true 200 "200% completion rate"
  /\ inRange (Check.score
                (checkCompletionRate Sample.repeated
                   (Assessment.items Sample.oneItem)))
     = false.
Proof.
  repeat split; vm_compute; reflexivity.
Qed.

(** C5 fails on the code: for a definition without items (and no
    answers, no time data) three checks fail with score 0, but the
    completion-rate check divides 0 by 0: its score is NaN and its
    message reads "Only NaN% completed". *)
Theorem zero_items_reliability (Math_pow : Number -> Number -> Number)
    (now : Date) :
  checkReliability Math_pow now Sample.noItems [] Metadata.empty
  = Reliability.mk false "poor"
      [ Check.mk "straightlining" false 0 "No answers provided";
        Check.mk "variability" false 0 "Not enough answers";
        Check.mk "extreme_responding" false 0 "No answers";
        Check.mk "completion_rate" false nan
          "Only NaN% completed - too many skipped" ]
      [ "straightlining"; "variability"; "extreme_responding";
        "completion_rate" ]%string
      now.
Proof.
  vm_compute. reflexivity.
Qed.

(** With time data the fifth check divides by the item count 0 as
    well: 60 / 0 is Infinity, and the check passes with score 100. *)
Lemma zero_items_response_time :
  checkResponseTime 60 (ofNat (length (Assessment.items Sample.noItems)))
  = Check.mk "response_time" true 100
      "Average Infinitys per item - adequate time".
Proof.
  vm_compute. reflexivity.
Qed.

(** ** Share and compare payloads (shareService.js) *)

(** C1: for a usable response the share payload holds the profile
    identifier derived from the response identifier, the overall score,
    one entry per dimension (the percentile left out when
    includePercentiles is false), the profile-strength label and the
    disclaimer -- and, against the claim, the response's userId as it
    is. *)
Theorem share_payload_of_usable (now : Date) (r : Response.t)
    (includePercentiles : bool) :
  Reliability.isUsable (Response.reliability r) = true ->
  exists p,
    generateSharePayload now r includePercentiles = ShareProfile p
    /\ SharePayload.profileId p = generateProfileId (Response.responseId r)
    /\ SharePayload.overallScore p = ScoreSet.overallScore (Response.scores r)
    /\ SharePayload.dimensions p
       = List.map
           (fun dim =>
              DimensionSummary.mk (DimensionScore.name dim)
                (DimensionScore.normalizedScore dim)
                (if includePercentiles
                 then Some (DimensionScore.percentile dim) else None)
                (getScoreLevel (DimensionScore.normalizedScore dim))
                (getScoreDescription (DimensionScore.name dim)
                   (DimensionScore.normalizedScore dim)))
           (ScoreSet.dimensions (Response.scores r))
    /\ SharePayload.profileStrength p
       = getProfileStrength (ScoreSet.dimensions (Response.scores r))
    /\ SharePayload.disclaimer p
       = "For informational purposes only. Not for clinical diagnosis."%string
    /\ SharePayload.userId p = Response.userId r.
Proof.
  intros Husable. unfold generateSharePayload. rewrite Husable. simpl.
  eexists. split; [reflexivity |]. simpl. repeat split.
Qed.

(** C1 on the stored response of user-123: the payload carries the
    anonymized identifier and the raw user identifier side by side. *)
Lemma share_payload_of_alice :
  exists p,
    generateSharePayload 0 Sample.alice true = ShareProfile p
    /\ SharePayload.profileId p = "profile_NTUwZTg0MDAt"%string
    /\ SharePayload.userId p = "user-123"%string.
Proof.
  destruct (share_payload_of_usable 0 Sample.alice true eq_refl)
    as [p (Hp & Hid & _ & _ & _ & _ & Huser)].
  exists p. split; [exact Hp |]. split.
  - rewrite Hid. reflexivity.
  - rewrite Huser. reflexivity.
Defined.

(** C2: a response that is not usable gets the error object with its
    rating from generateSharePayload, and the error object from
    generateComparePayload whichever side it stands on. *)
Theorem unusable_is_never_shared (now : Date) (r other : Response.t)
    (includePercentiles : bool) :
  Reliability.isUsable (Response.reliability r) = false ->
  generateSharePayload now r includePercentiles
  = ShareFailure
      (ShareError.mk "Response quality too low to share"
         (Reliability.overallRating (Response.reliability r)))
  /\ generateComparePayload now r other
     = CompareFailure
         (CompareError.mk "One or both profiles have insufficient quality")
  /\ generateComparePayload now other r
     = CompareFailure
         (CompareError.mk "One or both profiles have insufficient quality").
Proof.
  intros Hbad. unfold generateSharePayload, generateComparePayload.
  rewrite Hbad. simpl. rewrite orb_true_r. repeat split.
Qed.

(** C2 on the stored response rated poor, alone and against a usable
    one. *)
Lemma unusable_is_never_shared_sample :
  generateSharePayload 0 Sample.mallory true
  = ShareFailure (ShareError.mk "Response quality too low to share" "poor")
  /\ generateComparePayload 0 Sample.mallory Sample.alice
     = CompareFailure
         (CompareError.mk "One or both profiles have insufficient quality")
  /\ generateComparePayload 0 Sample.alice Sample.mallory
     = CompareFailure
         (CompareError.mk "One or both profiles have insufficient quality").
Proof.
  exact (unusable_is_never_shared 0 Sample.mallory Sample.alice true eq_refl).
Defined.

(** C10: for two usable responses the compare payload holds, next to
    the two anonymized profile identifiers, the userId of each response
    unchanged. *)
Theorem compare_payload_carries_userIds (now : Date)
    (response1 response2 : Response.t) :
  Reliability.isUsable (Response.reliability response1) = true ->
  Reliability.isUsable (Response.reliability response2) = true ->
  exists p,
    generateComparePayload now response1 response2 = Comparison p
    /\ ComparePayload.profile1 p
       = ProfileRef.mk (generateProfileId (Response.responseId response1))
           (Response.userId response1)
    /\ ComparePayload.profile2 p
       = ProfileRef.mk (generateProfileId (Response.responseId response2))
           (Response.userId response2).
Proof.
  intros H1 H2. unfold generateComparePayload. rewrite H1, H2. simpl.
  eexists. split; [reflexivity |]. split; reflexivity.
Qed.

(** C10 on the stored responses of user-123 and user-456. *)
Lemma compare_payload_of_alice_and_bob :
  exists p,
    generateComparePayload 0 Sample.alice Sample.bob = Comparison p
    /\ ProfileRef.userId (ComparePayload.profile1 p) = "user-123"%string
    /\ ProfileRef.userId (ComparePayload.profile2 p) = "user-456"%string.
Proof.
  destruct (compare_payload_carries_userIds 0 Sample.alice Sample.bob
              eq_refl eq_refl) as [p (Hp & H1 & H2)].
  exists p. split; [exact Hp |]. rewrite H1, H2. split; reflexivity.
Defined.

(** * Further properties *)

(** ** Anonymized identifiers (shareService.js) *)

Lemma append_cons (c : ascii) (s t : string) :
  (String c s ++ t)%string = String c (s ++ t).
Proof. reflexivity. Qed.

Lemma Buffer_from_app (s t : string) :
  Buffer_from (s ++ t)%string = (Buffer_from s ++ Buffer_from t)%list.
Proof.
  induction s as [| c s IH].
  - reflexivity.
  - rewrite append_cons. simpl. rewrite IH. apply List.app_assoc.
Qed.

Lemma append_assoc (s t u : string) :
  ((s ++ t) ++ u)%string = (s ++ (t ++ u))%string.
Proof.
  induction s as [| c s IH]; [reflexivity |].
  rewrite !append_cons, IH. reflexivity.
Qed.

(** A whole number of three-byte groups is encoded on its own: the
    digits that follow do not depend on it. *)
Lemma toString_base64_groups (k : nat) (bytes rest : list N) :
  length bytes = (3 * k)%nat ->
  toString_base64 (bytes ++ rest)
  = (toString_base64 bytes ++ toString_base64 rest)%string
  /\ String.length (toString_base64 bytes) = (4 * k)%nat.
Proof.
  revert bytes. induction k as [| k IH]; intros bytes Hlen.
  - destruct bytes; [| discriminate Hlen]. split; reflexivity.
  - destruct bytes as [| a [| b [| c bytes]]]; simpl in Hlen; try lia.
    destruct (IH bytes ltac:(lia)) as [IHapp IHlen].
    change (toString_base64 ((a :: b :: c :: bytes) ++ rest))
      with (String (base64_digit (a / 4))
              (String (base64_digit ((a mod 4) * 16 + b / 16))
                 (String (base64_digit ((b mod 16) * 4 + c / 64))
                    (String (base64_digit (c mod 64))
                       (toString_base64 (bytes ++ rest))))))%N.
    change (toString_base64 (a :: b :: c :: bytes))
      with (String (base64_digit (a / 4))
              (String (base64_digit ((a mod 4) * 16 + b / 16))
                 (String (base64_digit ((b mod 16) * 4 + c / 64))
                    (String (base64_digit (c mod 64))
                       (toString_base64 bytes)))))%N.
    rewrite IHapp. split; [reflexivity |]. simpl. rewrite IHlen. lia.
Qed.

Lemma substring0_app (s t : string) :
  substring0 (String.length s) (s ++ t)%string = s.
Proof.
  unfold substring0. induction s as [| c s IH].
  - destruct t; reflexivity.
  - rewrite append_cons. simpl. rewrite IH. reflexivity.
Qed.

(** The hash keeps the digits of the first [3 * k] bytes only. *)
Lemma hash_of_prefix (k : nat) (prefix tail : string) :
  length (Buffer_from prefix) = (3 * k)%nat ->
  substring0 (4 * k) (toString_base64 (Buffer_from (prefix ++ tail)%string))
  = toString_base64 (Buffer_from prefix).
Proof.
  intros Hlen. rewrite Buffer_from_app.
  destruct (toString_base64_groups k _ (Buffer_from tail) Hlen) as [-> Hk].
  rewrite <- Hk. apply substring0_app.
Qed.

(** X1: the profile identifier is the encoding of the first nine bytes
    of the response identifier; two response identifiers that start
    with the same nine bytes get the same profile identifier. *)
Theorem generateProfileId_first_nine_bytes (prefix tail1 tail2 : string) :
  length (Buffer_from prefix) = 9%nat ->
  generateProfileId (prefix ++ tail1)%string
  = ("profile_" ++ toString_base64 (Buffer_from prefix))%string
  /\ generateProfileId (prefix ++ tail1)%string
     = generateProfileId (prefix ++ tail2)%string.
Proof.
  intros Hlen. unfold generateProfileId.
  rewrite !(hash_of_prefix 3 prefix _ Hlen). split; reflexivity.
Qed.

(** X1 on two UUIDs that share their first block. *)
Lemma generateProfileId_first_nine_bytes_sample :
  generateProfileId "550e8400-e29b-41d4-a716-446655440000"
  = "profile_NTUwZTg0MDAt"%string
  /\ generateProfileId "550e8400-e29b-41d4-a716-446655440000"
     = generateProfileId "550e8400-ffff-4fff-bfff-ffffffffffff".
Proof.
  exact (generateProfileId_first_nine_bytes "550e8400-"
           "e29b-41d4-a716-446655440000" "ffff-4fff-bfff-ffffffffffff"
           eq_refl).
Defined.

(** X2: when the smaller of the two response identifiers has at least
    twelve bytes, the comparison identifier is the encoding of its
    first twelve bytes: the other identifier does not enter. *)
Theorem generateComparisonId_ignores_larger (prefix tail B C : string) :
  length (Buffer_from prefix) = 12%nat ->
  String.leb (prefix ++ tail) B = true ->
  String.leb (prefix ++ tail) C = true ->
  generateComparisonId (prefix ++ tail)%string B
  = ("compare_" ++ toString_base64 (Buffer_from prefix))%string
  /\ generateComparisonId (prefix ++ tail)%string B
     = generateComparisonId (prefix ++ tail)%string C.
Proof.
  intros Hlen HB HC.
  assert (H : forall D, String.leb (prefix ++ tail) D = true ->
            generateComparisonId (prefix ++ tail)%string D
            = ("compare_" ++ toString_base64 (Buffer_from prefix))%string).
  { intros D HD. unfold generateComparisonId, Array_sort. simpl.
    rewrite HD. unfold Array_join. simpl.
    rewrite append_assoc.
    rewrite (hash_of_prefix 4 prefix _ Hlen). reflexivity. }
  rewrite (H B HB), (H C HC). split; reflexivity.
Qed.

(** X2 on three UUIDs: the comparison of the first with the second and
    with the third carry one identifier. *)
Lemma generateComparisonId_ignores_larger_sample :
  generateComparisonId "550e8400-e29b-41d4-a716-446655440000"
    "660e8400-e29b-41d4-a716-446655440001"
  = "compare_NTUwZTg0MDAtZTI5"%string
  /\ generateComparisonId "550e8400-e29b-41d4-a716-446655440000"
       "660e8400-e29b-41d4-a716-446655440001"
     = generateComparisonId "550e8400-e29b-41d4-a716-446655440000"
         "770e8400-e29b-41d4-a716-446655440002".
Proof.
  exact (generateComparisonId_ignores_larger "550e8400-e29"
           "b-41d4-a716-446655440000"
           "660e8400-e29b-41d4-a716-446655440001"
           "770e8400-e29b-41d4-a716-446655440002"
           eq_refl eq_refl eq_refl).
Defined.

(** ** More facts about binary64 arithmetic *)

(** A Number that is neither NaN nor an infinity is a zero or a
    finite binary64 value. *)
Lemma isFinite_spec (x : Number) :
  isFinite x = true ->
  match Prim2SF x with
  | S754_zero _ | S754_finite _ _ _ => True
  | _ => False
  end.
Proof.
  unfold isFinite, is_finite, is_nan, is_infinity.
  rewrite !FloatAxioms.eqb_spec, abs_spec.
  change (Prim2SF infinity) with (S754_infinity false).
  destruct (Prim2SF x) as [s | s | | s m e]; try (intros _; exact I).
  - destruct s; intros H; discriminate H.
  - intros H; discriminate H.
Qed.

Lemma sub_diag (x : Number) : isFinite x = true -> x - x = 0.
Proof.
  intros H. apply isFinite_spec in H.
  apply Prim2SF_inj. rewrite sub_spec.
  change (Prim2SF 0) with (S754_zero false).
  destruct (Prim2SF x) as [s | s | | s m e]; try contradiction.
  - destruct s; reflexivity.
  - cbv [SF64sub SFsub]. rewrite Z.sub_diag. reflexivity.
Qed.


Lemma SFcompare_antisym (x y : spec_float) :
  SFcompare y x = option_map CompOpp (SFcompare x y).
Proof.
  destruct x as [sx | sx | | sx mx ex], y as [sy | sy | | sy my ey];
    simpl; try reflexivity;
    try (destruct sx; reflexivity); try (destruct sy; reflexivity);
    try (destruct sx, sy; reflexivity).
  destruct sx, sy; simpl; try reflexivity;
    rewrite (Z.compare_antisym ex ey);
    destruct (ex ?= ey)%Z; simpl; try reflexivity;
    rewrite (Pos.compare_cont_antisym mx my Eq); reflexivity.
Qed.


Lemma SFcompare_Lt_trans (x y z : spec_float) :
  SFcompare x y = Some Lt -> SFcompare y z = Some Lt ->
  SFcompare x z = Some Lt.
Proof.
  destruct x as [sx | sx | | sx mx ex], y as [sy | sy | | sy my ey],
    z as [sz | sz | | sz mz ez]; simpl;
    try discriminate; try (destruct sx); try (destruct sy);
    try (destruct sz); simpl; try discriminate; try reflexivity;
    change (Pos.compare_cont Eq) with Pos.compare;
    destruct (Z.compare_spec ex ey), (Z.compare_spec ey ez),
      (Z.compare_spec ex ez);
    try discriminate; try reflexivity; try lia;
    destruct (Pos.compare_spec mx my), (Pos.compare_spec my mz),
      (Pos.compare_spec mx mz);
    simpl; try discriminate; try reflexivity; try lia.
Qed.

Lemma lt_trans (a b c : Number) :
  lt a b = true -> lt b c = true -> lt a c = true.
Proof.
  unfold lt. rewrite !FloatAxioms.ltb_spec. unfold SFltb.
  destruct (SFcompare (Prim2SF a) (Prim2SF b)) as [[ | | ] |] eqn:Eab;
    try discriminate.
  destruct (SFcompare (Prim2SF b) (Prim2SF c)) as [[ | | ] |] eqn:Ebc;
    try discriminate.
  rewrite (SFcompare_Lt_trans _ _ _ Eab Ebc). reflexivity.
Qed.

(** ** Comparing two profiles (shareService.js) *)

Lemma find_none_existsb {A : Type} (p : A -> bool) (l : list A) :
  List.find p l = None <-> existsb p l = false.
Proof.
  induction l as [| x l IH]; simpl; [tauto |].
  destruct (p x); simpl; [split; discriminate | exact IH].
Qed.

(** X3: compareDimensions reports exactly the dimensions of the first
    profile whose identifier occurs in the second, in the order of the
    first, with the first profile's name and score; a dimension the
    second profile lacks is skipped. *)
Theorem compareDimensions_matched
    (dimensions1 dimensions2 : list DimensionScore.t) :
  List.map
    (fun c => (DimensionComparison.dimensionId c,
               DimensionComparison.dimensionName c,
               DimensionComparison.profile1Score c))
    (compareDimensions dimensions1 dimensions2)
  = List.map
      (fun d => (DimensionScore.dimensionId d, DimensionScore.name d,
                 DimensionScore.normalizedScore d))
      (List.filter
         (fun dim1 =>
            existsb
              (fun d => String.eqb (DimensionScore.dimensionId d)
                          (DimensionScore.dimensionId dim1))
              dimensions2)
         dimensions1).
Proof.
  unfold compareDimensions.
  induction dimensions1 as [| dim1 rest IH]; [reflexivity |].
  change (List.flat_map ?f (dim1 :: rest))
    with (f dim1 ++ List.flat_map f rest)%list.
  cbn [List.filter].
  destruct (List.find _ dimensions2) as [dim2 |] eqn:Hfind.
  - assert (He : existsb
                   (fun d => String.eqb (DimensionScore.dimensionId d)
                               (DimensionScore.dimensionId dim1))
                   dimensions2 = true).
    { destruct (existsb _ dimensions2) eqn:He; [reflexivity |].
      apply find_none_existsb in He. congruence. }
    rewrite He. cbn [List.map List.app]. rewrite IH. reflexivity.
  - apply find_none_existsb in Hfind. rewrite Hfind.
    cbn [List.app]. exact IH.
Qed.

(** In a list with distinct keys, looking an element up by its key
    finds that element. *)
Lemma find_by_own_key {A : Type} (key : A -> string) (all : list A) (x : A) :
  List.NoDup (List.map key all) -> In x all ->
  List.find (fun y => String.eqb (key y) (key x)) all = Some x.
Proof.
  induction all as [| h all IH]; intros Hnodup Hin; [contradiction |].
  simpl in Hnodup. inversion Hnodup as [| ? ? Hnotin Hrest]; subst.
  simpl. destruct Hin as [-> | Hin].
  - rewrite String.eqb_refl. reflexivity.
  - destruct (String.eqb_spec (key h) (key x)) as [Heq | Hne].
    + exfalso. apply Hnotin. rewrite Heq. apply in_map. exact Hin.
    + apply IH; assumption.
Qed.

Lemma compareDimensions_self (ds : list DimensionScore.t) :
  List.NoDup (List.map DimensionScore.dimensionId ds) ->
  Forall (fun d => isFinite (DimensionScore.normalizedScore d) = true) ds ->
  compareDimensions ds ds = List.map selfComparison ds.
Proof.
  intros Hnodup Hfin. unfold compareDimensions.
  assert (H : forall l, (forall d, In d l -> In d ds) ->
            List.flat_map
              (fun dim1 =>
                 match List.find
                         (fun d => String.eqb (DimensionScore.dimensionId d)
                                     (DimensionScore.dimensionId dim1)) ds with
                 | Some dim2 =>
                     let diff :=
                       Math_abs (DimensionScore.normalizedScore dim1
                                 - DimensionScore.normalizedScore dim2) in
                     let similarity := 100 - diff in
                     [ DimensionComparison.mk
                         (DimensionScore.dimensionId dim1)
                         (DimensionScore.name dim1)
                         (DimensionScore.normalizedScore dim1)
                         (DimensionScore.normalizedScore dim2)
                         (Math_round diff)
                         (Math_round similarity)
                         (getSimilarityCategory similarity)
                         (getComparisonInterpretation
                            (DimensionScore.name dim1)
                            (DimensionScore.normalizedScore dim1)
                            (DimensionScore.normalizedScore dim2)) ]
                 | None => []
                 end) l
            = List.map selfComparison l).
  { induction l as [| d l IH]; intros Hsub; [reflexivity |].
    change (List.flat_map ?f (d :: l))
      with (f d ++ List.flat_map f l)%list.
    cbv beta.
    rewrite (find_by_own_key DimensionScore.dimensionId ds d Hnodup
               (Hsub d (or_introl eq_refl))).
    rewrite IH by (intros d' Hd'; apply Hsub; right; exact Hd').
    assert (Hd : isFinite (DimensionScore.normalizedScore d) = true).
    { rewrite List.Forall_forall in Hfin. apply Hfin, Hsub. left. reflexivity. }
    cbv zeta. unfold getComparisonInterpretation.
    rewrite (sub_diag _ Hd). reflexivity. }
  apply H. intros d Hd. exact Hd.
Qed.

Lemma similar_areas_of_self (l : list DimensionScore.t) :
  List.filter (fun d => ge (DimensionComparison.similarity d) 75)
    (List.map selfComparison l)
  = List.map selfComparison l
  /\ List.filter (fun d => lt (DimensionComparison.similarity d) 75)
       (List.map selfComparison l)
     = [].
Proof.
  induction l as [| d l [IHs IHd]]; [split; reflexivity |].
  cbn [List.map List.filter].
  change (ge (DimensionComparison.similarity (selfComparison d)) 75)
    with true.
  change (lt (DimensionComparison.similarity (selfComparison d)) 75)
    with false.
  cbv iota. rewrite IHs, IHd. split; reflexivity.
Qed.

Lemma strongest_of_self (first : DimensionScore.t)
    (l : list DimensionScore.t) :
  fold_left
    (fun max comp =>
       if gt (DimensionComparison.similarity comp)
             (DimensionComparison.similarity max)
       then comp else max)
    (List.map selfComparison l) (selfComparison first)
  = selfComparison first
  /\ fold_left
       (fun max comp =>
          if gt (DimensionComparison.difference comp)
                (DimensionComparison.difference max)
          then comp else max)
       (List.map selfComparison l) (selfComparison first)
     = selfComparison first.
Proof.
  induction l as [| d l [IHs IHd]]; [split; reflexivity |].
  cbn [List.map fold_left].
  change (gt (DimensionComparison.similarity (selfComparison d))
             (DimensionComparison.similarity (selfComparison first)))
    with false.
  change (gt (DimensionComparison.difference (selfComparison d))
             (DimensionComparison.difference (selfComparison first)))
    with false.
  cbv iota. split; assumption.
Qed.

(** X4: two usable responses with the same dimension scores, distinct
    dimension identifiers and finite scores: every dimension is
    compared with difference 0 and similarity 100, all of them are
    similar areas, none is a different area, and the first dimension is
    reported as strongest similarity and as largest difference. *)
Theorem compare_identical_scores (now : Date)
    (response1 response2 : Response.t) :
  Reliability.isUsable (Response.reliability response1) = true ->
  Reliability.isUsable (Response.reliability response2) = true ->
  ScoreSet.dimensions (Response.scores response2)
  = ScoreSet.dimensions (Response.scores response1) ->
  List.NoDup (List.map DimensionScore.dimensionId
                (ScoreSet.dimensions (Response.scores response1))) ->
  Forall (fun d => isFinite (DimensionScore.normalizedScore d) = true)
    (ScoreSet.dimensions (Response.scores response1)) ->
  exists p,
    generateComparePayload now response1 response2 = Comparison p
    /\ ComparePayload.dimensions p
       = List.map selfComparison
           (ScoreSet.dimensions (Response.scores response1))
    /\ Summary.similarAreas (ComparePayload.summary p)
       = List.map DimensionScore.name
           (ScoreSet.dimensions (Response.scores response1))
    /\ Summary.differentAreas (ComparePayload.summary p) = []
    /\ Summary.strongestSimilarity (ComparePayload.summary p)
       = match ScoreSet.dimensions (Response.scores response1) with
         | [] => None
         | d :: _ => Some (Strongest.mk (DimensionScore.name d) 100)
         end
    /\ Summary.largestDifference (ComparePayload.summary p)
       = match ScoreSet.dimensions (Response.scores response1) with
         | [] => None
         | d :: _ => Some (Strongest.mk (DimensionScore.name d) 0)
         end.
Proof.
  intros H1 H2 Hsame Hnodup Hfin.
  unfold generateComparePayload. rewrite H1, H2, Hsame.
  rewrite (compareDimensions_self _ Hnodup Hfin).
  generalize (ScoreSet.dimensions (Response.scores response1)) as ds.
  intros ds. destruct (similar_areas_of_self ds) as [Hsim Hdiff].
  eexists. split; [reflexivity |].
  cbn [ComparePayload.dimensions ComparePayload.summary
       Summary.similarAreas Summary.differentAreas
       Summary.strongestSimilarity Summary.largestDifference negb orb].
  rewrite Hsim, Hdiff. repeat split.
  - rewrite List.map_map. reflexivity.
  - destruct ds as [| d l]; [reflexivity |].
    cbn [List.map findStrongest]. cbn [String.eqb].
    destruct (strongest_of_self d l) as [-> _]. reflexivity.
  - destruct ds as [| d l]; [reflexivity |].
    cbn [List.map findStrongest].
    destruct (strongest_of_self d l) as [_ ->]. reflexivity.
Qed.

(** X4 on the stored responses of user-123 and user-456, which hold
    the same scores. *)
Lemma compare_identical_scores_sample :
  exists p,
    generateComparePayload 0 Sample.alice Sample.bob = Comparison p
    /\ Summary.similarAreas (ComparePayload.summary p)
       = ["Extraversion"; "Agreeableness"; "Conscientiousness"]%string
    /\ Summary.differentAreas (ComparePayload.summary p) = [].
Proof.
  destruct (compare_identical_scores 0 Sample.alice Sample.bob
              eq_refl eq_refl eq_refl) as [p (Hp & _ & Hs & Hd & _)].
  - vm_compute. repeat constructor; simpl; intuition discriminate.
  - vm_compute. repeat constructor.
  - exists p. split; [exact Hp |]. split; [rewrite Hs | exact Hd].
    vm_compute. reflexivity.
Defined.

Lemma lt_irrefl (a : Number) : lt a a = false.
Proof.
  unfold lt. rewrite FloatAxioms.ltb_spec. unfold SFltb.
  pose proof (SFcompare_antisym (Prim2SF a) (Prim2SF a)) as H.
  destruct (SFcompare (Prim2SF a) (Prim2SF a)) as [[ | | ] |];
    try reflexivity; discriminate H.
Qed.


(** The loop of findStrongest over a key (similarity or difference):
    the element it ends with has been seen, and no element seen has a
    strictly greater key. *)
Lemma strongest_fold (key : DimensionComparison.t -> Number)
    (rest seen : list DimensionComparison.t) (max : DimensionComparison.t) :
  In max seen ->
  Forall (fun c => gt (key c) (key max) = false) seen ->
  let final :=
    fold_left (fun max comp => if gt (key comp) (key max) then comp else max)
      rest max in
  In final (seen ++ rest)
  /\ Forall (fun c => gt (key c) (key final) = false) (seen ++ rest).
Proof.
  revert seen max. induction rest as [| comp rest IH]; intros seen max Hin Hall.
  - simpl. rewrite List.app_nil_r. split; assumption.
  - cbn [fold_left].
    replace (seen ++ comp :: rest)%list with ((seen ++ [comp]) ++ rest)%list
      by (rewrite <- List.app_assoc; reflexivity).
    destruct (gt (key comp) (key max)) eqn:Hgt; apply IH.
    + apply List.in_or_app. right. left. reflexivity.
    + apply List.Forall_app. split.
      * rewrite List.Forall_forall in Hall |- *. intros c Hc.
        destruct (gt (key c) (key comp)) eqn:Hc'; [| reflexivity].
        unfold gt in *. rewrite <- (Hall c Hc). symmetry.
        apply (lt_trans _ _ _ Hgt Hc').
      * constructor; [apply lt_irrefl | constructor].
    + apply List.in_or_app. left. exact Hin.
    + apply List.Forall_app. split; [exact Hall |].
      constructor; [exact Hgt | constructor].
Qed.

(** X5: findStrongest returns null exactly for the empty list;
    otherwise it reports a dimension of the list whose similarity (for
    the type 'similarity') or difference (for any other type) no
    dimension of the list exceeds. *)
Theorem findStrongest_maximal (comparisons : list DimensionComparison.t)
    (type : string) :
  let key :=
    if String.eqb type "similarity"
    then DimensionComparison.similarity
    else DimensionComparison.difference in
  match findStrongest comparisons type with
  | None => comparisons = []
  | Some s =>
      exists c,
        In c comparisons
        /\ s = Strongest.mk (DimensionComparison.dimensionName c) (key c)
        /\ Forall (fun c' => gt (key c') (key c) = false) comparisons
  end.
Proof.
  intros key. unfold findStrongest.
  destruct comparisons as [| first rest]; [reflexivity |].
  subst key. destruct (String.eqb type "similarity").
  - destruct (strongest_fold DimensionComparison.similarity rest [first]
                first (or_introl eq_refl)) as [Hin Hall].
    { constructor; [apply lt_irrefl | constructor]. }
    eexists. split; [exact Hin |]. split; [reflexivity | exact Hall].
  - destruct (strongest_fold DimensionComparison.difference rest [first]
                first (or_introl eq_refl)) as [Hin Hall].
    { constructor; [apply lt_irrefl | constructor]. }
    eexists. split; [exact Hin |]. split; [reflexivity | exact Hall].
Qed.




Lemma compareDimensions_disjoint
    (dimensions1 dimensions2 : list DimensionScore.t) :
  Forall
    (fun dim1 =>
       existsb
         (fun d => String.eqb (DimensionScore.dimensionId d)
                     (DimensionScore.dimensionId dim1))
         dimensions2 = false)
    dimensions1 ->
  compareDimensions dimensions1 dimensions2 = [].
Proof.
  intros H. unfold compareDimensions.
  induction H as [| dim1 rest Hnone _ IH]; [reflexivity |].
  change (List.flat_map ?f (dim1 :: rest))
    with (f dim1 ++ List.flat_map f rest)%list.
  cbv beta. apply find_none_existsb in Hnone. rewrite Hnone, IH.
  reflexivity.
Qed.

(** X7: two usable responses without a common dimension identifier
    (an empty score set included) are not refused: the compare payload
    has no dimension entries, overall similarity 0, compatibility level
    very_low, empty area lists and null for the strongest similarity
    and the largest difference. *)
Theorem compare_without_common_dimension (now : Date)
    (response1 response2 : Response.t) :
  Reliability.isUsable (Response.reliability response1) = true ->
  Reliability.isUsable (Response.reliability response2) = true ->
  Forall
    (fun dim1 =>
       existsb
         (fun d => String.eqb (DimensionScore.dimensionId d)
                     (DimensionScore.dimensionId dim1))
         (ScoreSet.dimensions (Response.scores response2)) = false)
    (ScoreSet.dimensions (Response.scores response1)) ->
  exists p,
    generateComparePayload now response1 response2 = Comparison p
    /\ ComparePayload.dimensions p = []
    /\ ComparePayload.overallSimilarity p = 0
    /\ ComparePayload.compatibilityLevel p = "very_low"%string
    /\ ComparePayload.summary p = Summary.mk [] [] None None.
Proof.
  intros H1 H2 Hnone. unfold generateComparePayload.
  rewrite H1, H2, (compareDimensions_disjoint _ _ Hnone).
  eexists. split; [reflexivity |]. repeat split.
Qed.

(** X7 on the stored response of user-123 against a usable response
    without dimension scores. *)
Lemma compare_without_common_dimension_sample :
  exists p,
    generateComparePayload 0 Sample.alice
      (Response.mk "880e8400-e29b-41d4-a716-446655440003" "user-000"
         "empty-v1" [] (ScoreSet.mk [] 0 0)
         (Reliability.mk true "questionable" [] [] 0) Metadata.empty)
    = Comparison p
    /\ ComparePayload.dimensions p = []
    /\ ComparePayload.overallSimilarity p = 0
    /\ ComparePayload.compatibilityLevel p = "very_low"%string
    /\ ComparePayload.summary p = Summary.mk [] [] None None.
Proof.
  apply (compare_without_common_dimension 0 Sample.alice).
  - reflexivity.
  - reflexivity.
  - vm_compute. repeat constructor.
Defined.

(** ** Rating and flags (reliabilityService.js) *)

Lemma rating_of_four (c1 c2 c3 c4 : Check.t) :
  calculateOverallRating [c1; c2; c3; c4]
  = ratingOfFailures (length (generateFlags [c1; c2; c3; c4])).
Proof.
  unfold calculateOverallRating, generateFlags. cbn [List.filter].
  destruct (Check.passed c1), (Check.passed c2), (Check.passed c3),
    (Check.passed c4); vm_compute; reflexivity.
Qed.

Lemma rating_of_five (c1 c2 c3 c4 c5 : Check.t) :
  calculateOverallRating [c1; c2; c3; c4; c5]
  = ratingOfFailures (length (generateFlags [c1; c2; c3; c4; c5])).
Proof.
  unfold calculateOverallRating, generateFlags. cbn [List.filter].
  destruct (Check.passed c1), (Check.passed c2), (Check.passed c3),
    (Check.passed c4), (Check.passed c5); vm_compute; reflexivity.
Qed.

(** X8: whatever the input, checkReliability rates by the number of
    failed checks -- none: excellent, one: good, two: questionable,
    three or more: poor -- so a response is usable exactly when at most
    two checks failed, with four checks as with five. *)
Theorem usable_iff_at_most_two_flags
    (Math_pow : Number -> Number -> Number) (now : Date)
    (assessment : Assessment.t) (answers : list Answer.t)
    (metadata : Metadata.t) :
  let r := checkReliability Math_pow now assessment answers metadata in
  Reliability.overallRating r
  = ratingOfFailures (length (Reliability.flags r))
  /\ Reliability.isUsable r = (length (Reliability.flags r) <=? 2)%nat.
Proof.
  cbv zeta. unfold checkReliability.
  generalize (checkStraightlining answers) as c1.
  generalize (checkVariability Math_pow answers (Assessment.items assessment))
    as c2.
  generalize (checkExtremeResponding answers (Assessment.items assessment))
    as c3.
  generalize (checkCompletionRate answers (Assessment.items assessment))
    as c4.
  intros c4 c3 c2 c1.
  assert (Hladder : forall n,
            negb (String.eqb (ratingOfFailures n) "poor") = (n <=? 2)%nat).
  { intros [| [| [| n]]]; reflexivity. }
  destruct (Metadata.timeSpent metadata) as [timeSpent |];
    [destruct (gt timeSpent 0) |];
    cbn [Reliability.overallRating Reliability.flags Reliability.isUsable
         List.app];
    rewrite ?rating_of_four, ?rating_of_five; split;
    try reflexivity; apply Hladder.
Qed.

Lemma checkStraightlining_name (answers : list Answer.t) :
  Check.checkName (checkStraightlining answers) = "straightlining"%string.
Proof. destruct answers; reflexivity. Qed.

Lemma checkVariability_name (Math_pow : Number -> Number -> Number)
    (answers : list Answer.t) (items : list Item.t) :
  Check.checkName (checkVariability Math_pow answers items)
  = "variability"%string.
Proof.
  unfold checkVariability.
  destruct (length (answeredValues answers) <? 3)%nat; [reflexivity |].
  destruct items; reflexivity.
Qed.

Lemma checkExtremeResponding_name (answers : list Answer.t)
    (items : list Item.t) :
  Check.checkName (checkExtremeResponding answers items)
  = "extreme_responding"%string.
Proof.
  unfold checkExtremeResponding. destruct answers; [reflexivity |].
  destruct (fold_left _ _ _). reflexivity.
Qed.

(** X9: checkReliability reports the four checks straightlining,
    variability, extreme_responding, completion_rate in this order, and
    response_time after them exactly when timeSpent is a number above
    zero (not when it is missing, zero, negative or NaN). *)
Theorem checks_run (Math_pow : Number -> Number -> Number) (now : Date)
    (assessment : Assessment.t) (answers : list Answer.t)
    (metadata : Metadata.t) :
  List.map Check.checkName
    (Reliability.checks
       (checkReliability Math_pow now assessment answers metadata))
  = ([ "straightlining"; "variability"; "extreme_responding";
       "completion_rate" ]%string
     ++ match Metadata.timeSpent metadata with
        | Some timeSpent =>
            if gt timeSpent 0 then ["response_time"%string] else []
        | None => []
        end)%list.
Proof.
  unfold checkReliability.
  destruct (Metadata.timeSpent metadata) as [timeSpent |];
    [destruct (gt timeSpent 0) |];
    cbn [Reliability.checks List.map List.app];
    rewrite checkStraightlining_name, checkVariability_name,
      checkExtremeResponding_name; reflexivity.
Qed.

(** ** Item maps (reliabilityService.js, assessmentController.js) *)

Lemma find_app {A : Type} (p : A -> bool) (l l' : list A) :
  List.find p (l ++ l')
  = match List.find p l with Some x => Some x | None => List.find p l' end.
Proof.
  induction l as [| x l IH]; simpl; [reflexivity |].
  destruct (p x); [reflexivity | exact IH].
Qed.

Lemma find_rev_none {A : Type} (p : A -> bool) (l : list A) :
  List.find p (rev l) = None <-> existsb p l = false.
Proof.
  rewrite find_none_existsb.
  assert (H : existsb p (rev l) = true <-> existsb p l = true).
  { rewrite !existsb_exists. split; intros [x [Hx Hp]]; exists x;
      (split; [| exact Hp]); apply List.in_rev; [| rewrite List.rev_involutive];
      exact Hx. }
  destruct (existsb p (rev l)), (existsb p l); intuition congruence.
Qed.

(** Filling an object with one entry per item, keyed by the item
    identifier: a lookup finds the entry of the last item that has the
    identifier. *)
Lemma index_lookup {V : Type} (entry : Item.t -> V) (items : list Item.t)
    (itemMap : gmap string V) (id : string) :
  fold_left
    (fun (itemMap : gmap string V) item =>
       <[ Item.itemId item := entry item ]> itemMap)
    items itemMap !! id
  = match List.find (fun i => String.eqb (Item.itemId i) id) (rev items) with
    | Some item => Some (entry item)
    | None => itemMap !! id
    end.
Proof.
  revert itemMap. induction items as [| item items IH]; intros itemMap.
  - reflexivity.
  - cbn [fold_left rev]. rewrite IH, find_app.
    destruct (List.find _ (rev items)); [reflexivity |].
    cbn [List.find]. rewrite lookup_insert.
    destruct (String.eqb_spec (Item.itemId item) id) as [Heq | Hne];
      destruct (decide (Item.itemId item = id)); congruence.
Qed.


Lemma indexItems_lookup (items : list Item.t) (id : string) :
  indexItems items !! id
  = List.find (fun i => String.eqb (Item.itemId i) id) (rev items).
Proof.
  unfold indexItems. rewrite (index_lookup (fun item => item)).
  destruct (List.find _ _); [reflexivity | apply lookup_empty].
Qed.





(** ** validateAnswers (assessmentController.js) *)






(** X14: what validateAnswers throws describes an answer of the
    request: an identifier no item has, or a value below the minValue
    or above the maxValue of the last item with the answer's
    identifier. *)
Theorem validateAnswers_throws (now : Date) (answers : list RawAnswer.t)
    (items : list Item.t) (e : ValidationError) :
  validateAnswers now answers items = Throw e ->
  exists a,
    In a answers
    /\ match e with
       | InvalidItemId id =>
           id = RawAnswer.itemId a
           /\ existsb (fun i => String.eqb (Item.itemId i) id) items = false
       | OutOfRange v id minValue maxValue =>
           id = RawAnswer.itemId a
           /\ RawAnswer.value a = Some v
           /\ (lt v minValue || gt v maxValue) = true
           /\ exists item,
                List.find (fun i => String.eqb (Item.itemId i) id) (rev items)
                = Some item
                /\ minValue = Item.minValue item
                /\ maxValue = Item.maxValue item
       end.
Proof.
  unfold validateAnswers.
  induction answers as [| a answers IH]; [discriminate |].
  cbn [Array_map_throwing].
  destruct (validateAnswer now (indexItems items) a) as [e' | y] eqn:Ha.
  - intros H. injection H as ->. exists a. split; [left; reflexivity |].
    unfold validateAnswer in Ha. rewrite indexItems_lookup in Ha.
    destruct (List.find _ (rev items)) as [item |] eqn:Hfind.
    + destruct (RawAnswer.value a) as [v |]; [| discriminate Ha].
      destruct (lt v (Item.minValue item) || gt v (Item.maxValue item))
        eqn:Hout; [| discriminate Ha].
      injection Ha as <-. repeat split; try assumption.
      exists item. repeat split. exact Hfind.
    + injection Ha as <-. split; [reflexivity |].
      apply find_rev_none. exact Hfind.
  - destruct (Array_map_throwing _ answers) as [e' | ys]; [| discriminate].
    intros H. injection H as ->. destruct (IH eq_refl) as [b [Hb He]].
    exists b. split; [right; exact Hb | exact He].
Qed.

(** X14 on an answer to the unknown item q77. *)
Lemma validateAnswers_throws_sample :
  validateAnswers 0 [RawAnswer.mk "q77" (Some 3) None] Sample.items
  = Throw (InvalidItemId "q77")
  /\ exists a,
       In a [RawAnswer.mk "q77" (Some 3) None]
       /\ "q77"%string = RawAnswer.itemId a
       /\ existsb (fun i => String.eqb (Item.itemId i) "q77") Sample.items
          = false.
Proof.
  split; [reflexivity |].
  exact (validateAnswers_throws 0 [RawAnswer.mk "q77" (Some 3) None]
           Sample.items (InvalidItemId "q77") eq_refl).
Defined.



(** ** Grouping and scoring (scoringService.js) *)






Section GroupingFacts.

Variable Math_exp : Number -> Number.







End GroupingFacts.



(** ** Labels (shareService.js) *)

(** X20: for every score, NaN included, the description is the
    template of the label getScoreLevel gives; the fallback text
    "Score available" is never returned. *)
Theorem description_follows_level (dimensionName : string) (score : Number) :
  In (getScoreLevel score, getScoreDescription dimensionName score)
    [ ("very_high", "Very strong in " ++ dimensionName);
      ("high", "Above average in " ++ dimensionName);
      ("moderate", "Moderate " ++ dimensionName);
      ("low", "Below average in " ++ dimensionName);
      ("very_low", "Low " ++ dimensionName) ]%string
  /\ getScoreDescription dimensionName score <> "Score available"%string.
Proof.
  unfold getScoreDescription, getScoreLevel.
  destruct (ge score 80); [| destruct (ge score 60);
    [| destruct (ge score 40); [| destruct (ge score 20)]]];
    cbn [String.eqb Ascii.eqb Bool.eqb]; split;
    try (simpl; tauto); cbv [append]; discriminate.
Qed.
